(** * jellyberry firmware tools: the image header decoder

    A shallow embedding of [tools/parse_image_header.py] (and of the file
    access of its sibling [tools/scan_firmware.py]) together with the
    properties of the decoder: the candidate decodings of the packed
    configuration byte, the size table, the guard on undersized files, the
    marker scan and the exit status of a run.

    Python integers are [Z], the content of a file is a [list byte], the
    text printed on standard output is the list of the strings handed to
    [print], and the script runs in a small state-and-exception monad over
    a world made of the file system and the output printed so far. *)

From Stdlib Require Import ZArith Lia List String Ascii Strings.Byte.
From Stdlib Require Import HexString BinaryString DecimalString.
From stdpp Require Import base gmap strings list.

Local Open Scope Z_scope.

(** ** Python values and formatting *)

Module Py.

(** [list(data)]: the integers of a [bytes] object. *)
Definition int_of_byte (x : byte) : Z := Z.of_N (Byte.to_N x).

Definition list_of_bytes (data : list byte) : list Z := map int_of_byte data.

(** A [bytes] literal such as [b'4096']. *)
Definition bytes_lit (s : string) : list byte := String.list_byte_of_string s.

(** [str(n)] for an integer. *)
Definition str (n : Z) : string := NilZero.string_of_int (Z.to_int n).

(** The digits of [abs n] in base 16 (lower case) and in base 2. *)
Definition hex_digits (n : Z) : string :=
  match n with
  | Z0 => "0"
  | Zpos p | Zneg p => HexString.Raw.of_pos p ""
  end.

Definition bin_digits (n : Z) : string :=
  match n with
  | Z0 => "0"
  | Zpos p | Zneg p => BinaryString.Raw.of_pos p ""
  end.

Definition sign_of (n : Z) : string :=
  match n with Zneg _ => "-" | _ => "" end.

Fixpoint zeros (k : nat) : string :=
  match k with
  | O => ""
  | S k' => String "0" (zeros k')
  end.

(** The [0w] part of a format specification: zeros go between the sign and
    the digits until the field is [width] characters wide. *)
Definition zero_pad (width : nat) (sign digits : string) : string :=
  sign +:+ zeros (width - String.length sign - String.length digits) +:+ digits.

(** [f'{n:0wx}'] and [f'{n:0wb}']. *)
Definition format_x (width : nat) (n : Z) : string :=
  zero_pad width (sign_of n) (hex_digits n).

Definition format_b (width : nat) (n : Z) : string :=
  zero_pad width (sign_of n) (bin_digits n).

(** [sep.join(items)]. *)
Fixpoint join (sep : string) (items : list string) : string :=
  match items with
  | [] => ""
  | [x] => x
  | x :: rest => x +:+ sep +:+ join sep rest
  end.

(** [bytes.decode(errors='ignore')].  On bytes below 0x80 the (UTF-8)
    decoding is the identity; the bytes that do not decode are dropped.
    The script only decodes its ASCII marker literals. *)
Fixpoint decode_ignore (s : list byte) : string :=
  match s with
  | [] => ""
  | x :: rest =>
      if (Byte.to_N x <? 128)%N
      then String (ascii_of_byte x) (decode_ignore rest)
      else decode_ignore rest
  end.

(** [s in content] on [bytes]: [s] occurs as a contiguous run of
    [content]. *)
Fixpoint startswith (s content : list byte) : bool :=
  match s, content with
  | [], _ => true
  | _ :: _, [] => false
  | x :: s', y :: content' => Byte.eqb x y && startswith s' content'
  end.

Fixpoint bytes_in (s content : list byte) : bool :=
  startswith s content ||
  match content with
  | [] => false
  | _ :: content' => bytes_in s content'
  end.

(** [f.read(n)] on a freshly opened file. *)
Definition read (f : list byte) (n : option nat) : list byte :=
  match n with
  | Some k => firstn k f
  | None => f
  end.

End Py.

(** ** The world of a run: files and standard output *)

Inductive exception : Type :=
| SystemExit (code : Z)
| IndexError
| FileNotFoundError
| PermissionError
| IsADirectoryError.

Inductive node : Type :=
| RegularFile (readable : bool) (content : list byte)
| Directory.

Record world : Type := World {
  files : gmap string node;
  stdout : list string
}.

Inductive result (A : Type) : Type :=
| Return (a : A)
| Raise (e : exception).

Arguments Return {A} a.
Arguments Raise {A} e.

(** A statement of the script: it runs in a world and either returns or
    raises, leaving the world it has reached. *)
Definition Script (A : Type) : Type := world -> result A * world.

#[export] Instance script_ret : MRet Script :=
  fun A (a : A) w => (Return a, w).

#[export] Instance script_bind : MBind Script :=
  fun A B (k : A -> Script B) (m : Script A) w =>
    match m w with
    | (Return a, w') => k a w'
    | (Raise e, w') => (Raise e, w')
    end.

Definition raise {A : Type} (e : exception) : Script A :=
  fun w => (Raise e, w).

(** [print(s)]: one more line on standard output. *)
Definition print (s : string) : Script unit :=
  fun w => (Return tt, World (files w) (stdout w ++ [s])).

(** [sys.exit(code)]. *)
Definition sys_exit {A : Type} (code : Z) : Script A := raise (SystemExit code).

(** [open(fn, 'rb')]: the file object stands for the bytes of the file. *)
Definition open_rb (fn : string) : Script (list byte) :=
  fun w =>
    match files w !! fn with
    | None => (Raise FileNotFoundError, w)
    | Some Directory => (Raise IsADirectoryError, w)
    | Some (RegularFile false _) => (Raise PermissionError, w)
    | Some (RegularFile true content) => (Return content, w)
    end.

(** [l[i]] for a list and a non-negative literal index. *)
Definition item {A : Type} (l : list A) (i : nat) : Script A :=
  match l !! i with
  | Some x => mret x
  | None => raise IndexError
  end.

(** [for x in l: body(x)]. *)
Fixpoint for_each {A : Type} (l : list A) (body : A -> Script unit) : Script unit :=
  match l with
  | [] => mret tt
  | x :: rest => body x ;; for_each rest body
  end.

(** ** tools/parse_image_header.py *)

Definition size_map : gmap Z string :=
  <[0 := "1MB"]> (<[1 := "2MB"]> (<[2 := "4MB"]> (<[3 := "8MB"]>
  (<[4 := "16MB"]> (<[5 := "32MB"]> ∅))))).

(** [d.get(k, dflt)]. *)
Definition get (d : gmap Z string) (k : Z) (dflt : string) : string :=
  default dflt (d !! k).

Definition low3 (spi_byte : Z) : Z := Z.land spi_byte 7.
Definition low4 (spi_byte : Z) : Z := Z.land spi_byte 15.
Definition high3 (spi_byte : Z) : Z := Z.land (Z.shiftr spi_byte 4) 7.

Definition markers : list (list byte) :=
  map Py.bytes_lit ["4096"; "8192"; "8MB"; "4MB"; "8192k"; "4096k"].

Definition newline : string := String (ascii_of_nat 10) "".

(** The lines printed for the header fields and for the candidates. *)
Definition header_line (b : list Z) : string :=
  "Header bytes:" +:+ " " +:+ Py.join " " (map (Py.format_x 2) (firstn 16 b)).

Definition magic_line (magic : Z) : string :=
  "Magic: 0x" +:+ Py.format_x 2 magic.

Definition seg_count_line (seg_count : Z) : string :=
  "Segment count: " +:+ Py.str seg_count.

Definition spi_byte_line (spi_byte : Z) : string :=
  "Raw spi byte: 0x" +:+ Py.format_x 2 spi_byte +:+ " (" +:+
  Py.format_b 8 spi_byte +:+ ")".

Definition candidate_line (rule : string) (value : Z) : string :=
  rule +:+ " " +:+ Py.str value +:+ " " +:+ get size_map value "unknown".

Definition marker_line (s : list byte) : string :=
  "Found ascii marker:" +:+ " " +:+ Py.decode_ignore s.

Definition done_line : string := newline +:+ "Done".

Definition parse_image_header (argv : list string) : Script unit :=
  fn ← item argv 1;
  f ← open_rb fn;
  let data := Py.read f (Some 32%nat) in
  (if decide (Z.of_nat (length data) < 8)
   then print "File too small" ;; sys_exit 2
   else mret tt) ;;
  let b := Py.list_of_bytes data in
  print (header_line b) ;;
  magic ← item b 0;
  seg_count ← item b 1;
  spi_byte ← item b 2;
  print (magic_line magic) ;;
  print (seg_count_line seg_count) ;;
  print (spi_byte_line spi_byte) ;;
  print "Decoded candidates:" ;;
  print (candidate_line " - lower 3 bits ->" (low3 spi_byte)) ;;
  print (candidate_line " - lower 4 bits ->" (low4 spi_byte)) ;;
  print (candidate_line " - upper 3 bits ->" (high3 spi_byte)) ;;
  f ← open_rb fn;
  let content := Py.read f None in
  for_each markers (fun s =>
    if Py.bytes_in s content then print (marker_line s) else mret tt) ;;
  print done_line.

(** ** tools/scan_firmware.py *)

Definition patterns : list (list byte) :=
  map Py.bytes_lit ["8192"; "4096"; "8MB"; "4MB"; "8192k"; "4096k"].

Definition firmware_path : string :=
  ".pio\build\esp32-s3-devkitc-1\firmware.bin".

(** [try: body except FileNotFoundError: handler]. *)
Definition try_except_FileNotFoundError {A : Type}
    (body handler : Script A) : Script A :=
  fun w =>
    match body w with
    | (Raise FileNotFoundError, w') => handler w'
    | r => r
    end.

(** [data.find(p)]: the least offset at which [p] occurs, or -1. *)
Fixpoint find_from (p data : list byte) (off : Z) : Z :=
  if Py.startswith p data then off
  else match data with
       | [] => -1
       | _ :: data' => find_from p data' (off + 1)
       end.

Definition find (data p : list byte) : Z := find_from p data 0.

(** [hex(n)]. *)
Definition hex (n : Z) : string := Py.sign_of n +:+ "0x" +:+ Py.hex_digits n.

(** The patterns are ASCII, on which [p.decode()] and
    [p.decode(errors='ignore')] agree. *)
Definition scan_firmware : Script unit :=
  let path := firmware_path in
  data ← try_except_FileNotFoundError
            (f ← open_rb path; mret (Py.read f None))
            (print ("MISSING" +:+ " " +:+ path) ;; sys_exit 1);
  for_each patterns (fun p =>
    let off := find data p in
    if decide (off ≠ -1)
    then print (Py.decode_ignore p +:+ " " +:+ hex off)
    else mret tt).

(** ** The interpreter around a script *)

(** How a process ends: with the status of [sys.exit] (0 when the script
    runs to its end), or on an exception nobody caught, which the
    interpreter reports as a traceback on standard error. *)
Inductive termination : Type :=
| Exited (code : Z)
| Traceback (e : exception).

Definition exit_status (t : termination) : Z :=
  match t with
  | Exited code => code
  | Traceback _ => 1
  end.

Definition terminate (r : result unit) : termination :=
  match r with
  | Return _ => Exited 0
  | Raise (SystemExit code) => Exited code
  | Raise e => Traceback e
  end.

Record outcome : Type := Outcome {
  output : list string;
  status : termination;
  files_after : gmap string node
}.

(** One run of a script on a file system, starting with nothing printed. *)
Definition run (script : Script unit) (fs : gmap string node) : outcome :=
  let '(r, w) := script (World fs []) in
  Outcome (stdout w) (terminate r) (files w).

(** The text on standard output: [print] ends every line. *)
Definition text (lines : list string) : string :=
  fold_right (fun l acc => l +:+ newline +:+ acc) "" lines.

(** ** Vocabulary of the properties *)

(** [s] occurs in [content] as a contiguous run of bytes. *)
Definition occurs (s content : list byte) : Prop :=
  ∃ pre post : list byte, content = pre ++ s ++ post.

(** No statement of the scripts writes to a file. *)
Definition keeps_files {A : Type} (m : Script A) : Prop :=
  ∀ w : world, files (m w).2 = files w.

(** The lines of a full report. *)
Definition field_lines (b : list Z) (magic seg_count spi_byte : Z) : list string :=
  [ header_line b;
    magic_line magic;
    seg_count_line seg_count;
    spi_byte_line spi_byte;
    "Decoded candidates:";
    candidate_line " - lower 3 bits ->" (low3 spi_byte);
    candidate_line " - lower 4 bits ->" (low4 spi_byte);
    candidate_line " - upper 3 bits ->" (high3 spi_byte) ].

Definition found_lines (content : list byte) : list string :=
  map marker_line (List.filter (λ s, Py.bytes_in s content) markers).

(** The exception that [open(fn, 'rb')] raises on a path, if any. *)
Definition open_error (n : option node) : option exception :=
  match n with
  | None => Some FileNotFoundError
  | Some Directory => Some IsADirectoryError
  | Some (RegularFile false _) => Some PermissionError
  | Some (RegularFile true _) => None
  end.

(** Every run is of one of four kinds. *)
Inductive run_kind (fs : gmap string node) (argv : list string) : outcome → Prop :=
| NoArgument :
    argv !! 1%nat = None →
    run_kind fs argv (Outcome [] (Traceback IndexError) fs)
| CannotOpen fn e :
    argv !! 1%nat = Some fn →
    open_error (fs !! fn) = Some e →
    run_kind fs argv (Outcome [] (Traceback e) fs)
| TooSmall fn content :
    argv !! 1%nat = Some fn →
    fs !! fn = Some (RegularFile true content) →
    (length content < 8)%nat →
    run_kind fs argv (Outcome ["File too small"] (Exited 2) fs)
| Report fn x0 x1 x2 rest :
    let content := x0 :: x1 :: x2 :: rest in
    argv !! 1%nat = Some fn →
    fs !! fn = Some (RegularFile true content) →
    (8 ≤ length content)%nat →
    run_kind fs argv
      (Outcome
         (field_lines (Py.list_of_bytes (firstn 32 content))
            (Py.int_of_byte x0) (Py.int_of_byte x1) (Py.int_of_byte x2) ++
          found_lines content ++ [done_line])
         (Exited 0) fs).

(** The lines of the marker scan, and the lines that start with a given
    label. *)
Definition is_marker_line (l : string) : bool :=
  String.prefix "Found ascii marker:" l.

Definition lines_starting (label : string) (out : list string) : list string :=
  List.filter (String.prefix label) out.

(** The name of the script in [sys.argv[0]] and some files to run it on. *)
Definition script_name : string := "parse_image_header.py".

Definition esp_image : list byte :=
  [xe9; x03; x02; x20; x00; x00; x00; x00] ++ Py.bytes_lit "flash 8192k".

Definition all_unknown_image : list byte :=
  [x00; x00; x77; x00; x00; x00; x00; x00].

Definition sample_files : gmap string node :=
  {[ "firmware.bin" := RegularFile true esp_image;
     "blank.bin" := RegularFile true all_unknown_image;
     "tiny.bin" := RegularFile true (Py.bytes_lit "4MB");
     "empty.bin" := RegularFile true [];
     "locked.bin" := RegularFile false esp_image;
     "build" := Directory ]}.

(** The line that [scan_firmware] prints for a pattern, and the lines of
    a whole scan of [data]. *)
Definition scan_line (data p : list byte) : string :=
  Py.decode_ignore p +:+ " " +:+ hex (find data p).

Definition scan_lines (data : list byte) : list string :=
  map (scan_line data) (List.filter (λ p, Py.bytes_in p data) patterns).

(** Bytes that are ASCII characters. *)
Definition is_ascii (x : byte) : bool := (Byte.to_N x <? 128)%N.

(** ** Examples of the formatting functions *)

Example format_x_e9 : Py.format_x 2 233 = "e9".
Proof. reflexivity. Qed.

Example format_x_small : Py.format_x 2 3 = "03".
Proof. reflexivity. Qed.

Example format_b_two : Py.format_b 8 2 = "00000010".
Proof. reflexivity. Qed.

Example str_examples : Py.str 0 = "0" /\ Py.str 15 = "15" /\ Py.str 255 = "255".
Proof. repeat split. Qed.

Example join_three : Py.join " " ["e9"; "03"; "02"] = "e9 03 02".
Proof. reflexivity. Qed.

Example decode_marker : Py.decode_ignore (Py.bytes_lit "8192k") = "8192k".
Proof. reflexivity. Qed.

Example bytes_in_examples :
  Py.bytes_in (Py.bytes_lit "4MB") (Py.bytes_lit "flash 4MB qio") = true /\
  Py.bytes_in (Py.bytes_lit "4MB") (Py.bytes_lit "flash 4 MB") = false /\
  Py.bytes_in (Py.bytes_lit "4MB") [] = false.
Proof. repeat split. Qed.

(** ** The candidate decodings and the size table *)

Section Candidates.

Lemma ones_3 : 7 = Z.ones 3.
Proof. reflexivity. Qed.

Lemma ones_4 : 15 = Z.ones 4.
Proof. reflexivity. Qed.

Lemma testbit_7 (i : Z) : 0 ≤ i → Z.testbit 7 i = (i <? 3).
Proof. intros Hi. rewrite ones_3. apply Z.testbit_ones_nonneg; lia. Qed.

Lemma testbit_15 (i : Z) : 0 ≤ i → Z.testbit 15 i = (i <? 4).
Proof. intros Hi. rewrite ones_4. apply Z.testbit_ones_nonneg; lia. Qed.

Lemma low3_mod (c : Z) : low3 c = c mod 8.
Proof. unfold low3. rewrite ones_3, Z.land_ones by lia. reflexivity. Qed.

Lemma low4_mod (c : Z) : low4 c = c mod 16.
Proof. unfold low4. rewrite ones_4, Z.land_ones by lia. reflexivity. Qed.

Lemma high3_mod (c : Z) : high3 c = (c / 16) mod 8.
Proof.
  unfold high3. rewrite ones_3, Z.land_ones, Z.shiftr_div_pow2 by lia.
  reflexivity.
Qed.

Lemma low3_testbit (c i : Z) :
  0 ≤ i → Z.testbit (low3 c) i = Z.testbit c i && (i <? 3).
Proof. intros Hi. unfold low3. by rewrite Z.land_spec, testbit_7. Qed.

Lemma low4_testbit (c i : Z) :
  0 ≤ i → Z.testbit (low4 c) i = Z.testbit c i && (i <? 4).
Proof. intros Hi. unfold low4. by rewrite Z.land_spec, testbit_15. Qed.

Lemma high3_testbit (c i : Z) :
  0 ≤ i → Z.testbit (high3 c) i = Z.testbit c (i + 4) && (i <? 3).
Proof.
  intros Hi. unfold high3.
  by rewrite Z.land_spec, testbit_7, Z.shiftr_spec.
Qed.

Lemma size_map_lookup_other (k : Z) : ¬ (0 ≤ k ≤ 5) → size_map !! k = None.
Proof.
  intros Hk. unfold size_map.
  rewrite !lookup_insert_ne by lia. apply lookup_empty.
Qed.

Lemma get_other (k : Z) (dflt : string) :
  ¬ (0 ≤ k ≤ 5) → get size_map k dflt = dflt.
Proof. intros Hk. unfold get. by rewrite size_map_lookup_other. Qed.

(** C1: on a configuration byte the three extractions are the masks of the
    script and stay within [0,7], [0,15] and [0,7]; the size table sends the
    codes 0 to 5 to "1MB", "2MB", "4MB", "8MB", "16MB" and "32MB", and the
    lookup of any other code answers "unknown". *)
Theorem candidates_in_range_and_labelled (configByte : Z) :
  0 ≤ configByte ≤ 255 →
  (low3 configByte = Z.land configByte 7 ∧ 0 ≤ low3 configByte ≤ 7) ∧
  (low4 configByte = Z.land configByte 15 ∧ 0 ≤ low4 configByte ≤ 15) ∧
  (high3 configByte = Z.land (Z.shiftr configByte 4) 7 ∧
   0 ≤ high3 configByte ≤ 7) ∧
  map (λ k, get size_map k "unknown") [0; 1; 2; 3; 4; 5] =
    ["1MB"; "2MB"; "4MB"; "8MB"; "16MB"; "32MB"] ∧
  ∀ k : Z, ¬ (0 ≤ k ≤ 5) → get size_map k "unknown" = "unknown".
Proof.
  intros Hc. repeat split; try reflexivity.
  - rewrite low3_mod. apply Z.mod_pos_bound. lia.
  - rewrite low3_mod. pose proof (Z.mod_pos_bound configByte 8). lia.
  - rewrite low4_mod. apply Z.mod_pos_bound. lia.
  - rewrite low4_mod. pose proof (Z.mod_pos_bound configByte 16). lia.
  - rewrite high3_mod. apply Z.mod_pos_bound. lia.
  - rewrite high3_mod. pose proof (Z.mod_pos_bound (configByte / 16) 8). lia.
  - intros k Hk. by apply get_other.
Qed.

Lemma candidates_in_range_and_labelled_witness :
  0 ≤ low3 233 ≤ 7 ∧ 0 ≤ low4 233 ≤ 15 ∧ 0 ≤ high3 233 ≤ 7 ∧
  get size_map 9 "unknown" = "unknown".
Proof.
  destruct (candidates_in_range_and_labelled 233) as
    ([_ H3] & [_ H4] & [_ Hh] & _ & Hother); [lia|].
  split; [exact H3|]. split; [exact H4|]. split; [exact Hh|].
  apply Hother. lia.
Defined.

(** C8: two configuration bytes that agree on the bits 0 to 6 have the
    same three extracted values and the same three labels, whatever their
    bit 7. *)
Theorem bit7_never_influences (c1 c2 : Z) :
  (∀ i : Z, 0 ≤ i < 7 → Z.testbit c1 i = Z.testbit c2 i) →
  (low3 c1 = low3 c2 ∧ low4 c1 = low4 c2 ∧ high3 c1 = high3 c2) ∧
  get size_map (low3 c1) "unknown" = get size_map (low3 c2) "unknown" ∧
  get size_map (low4 c1) "unknown" = get size_map (low4 c2) "unknown" ∧
  get size_map (high3 c1) "unknown" = get size_map (high3 c2) "unknown".
Proof.
  intros Hbits.
  assert (H3 : low3 c1 = low3 c2).
  { apply Z.bits_inj'. intros i Hi. rewrite !low3_testbit by done.
    destruct (Z.ltb_spec i 3) as [Hlt|Hge].
    - by rewrite Hbits by lia.
    - by rewrite !andb_false_r. }
  assert (H4 : low4 c1 = low4 c2).
  { apply Z.bits_inj'. intros i Hi. rewrite !low4_testbit by done.
    destruct (Z.ltb_spec i 4) as [Hlt|Hge].
    - by rewrite Hbits by lia.
    - by rewrite !andb_false_r. }
  assert (Hh : high3 c1 = high3 c2).
  { apply Z.bits_inj'. intros i Hi. rewrite !high3_testbit by done.
    destruct (Z.ltb_spec i 3) as [Hlt|Hge].
    - by rewrite Hbits by lia.
    - by rewrite !andb_false_r. }
  by rewrite H3, H4, Hh.
Qed.

Lemma bit7_never_influences_witness :
  (low3 2 = low3 130 ∧ low4 2 = low4 130 ∧ high3 2 = high3 130) ∧
  get size_map (low3 2) "unknown" = get size_map (low3 130) "unknown" ∧
  get size_map (low4 2) "unknown" = get size_map (low4 130) "unknown" ∧
  get size_map (high3 2) "unknown" = get size_map (high3 130) "unknown".
Proof.
  apply (bit7_never_influences 2 130).
  intros i Hi.
  assert (Hcases : i = 0 ∨ i = 1 ∨ i = 2 ∨ i = 3 ∨ i = 4 ∨ i = 5 ∨ i = 6)
    by lia.
  destruct Hcases as [->|[->|[->|[->|[->|[->| ->]]]]]]; reflexivity.
Defined.

(** Flipping bit 7 is one way to agree on the bits 0 to 6. *)
Lemma agree_below_bit7 (c : Z) (i : Z) :
  0 ≤ i < 7 → Z.testbit c i = Z.testbit (Z.lxor c 128) i.
Proof.
  intros Hi. rewrite Z.lxor_spec.
  replace 128 with (2 ^ 7) by reflexivity.
  rewrite (Z.pow2_bits_false 7 i) by lia. by rewrite xorb_false_r.
Qed.

(** C9: the lower-3-bits value is the lower-4-bits value masked with
    0b111; when bit 3 of the configuration byte is 0 the two candidates
    have the same value and the same label. *)
Theorem low3_is_low4_masked (configByte : Z) :
  low3 configByte = Z.land (low4 configByte) 7 ∧
  (Z.testbit configByte 3 = false →
   low3 configByte = low4 configByte ∧
   get size_map (low3 configByte) "unknown" =
     get size_map (low4 configByte) "unknown").
Proof.
  split.
  - unfold low3, low4. by rewrite <- Z.land_assoc.
  - intros Hbit3.
    assert (H : low3 configByte = low4 configByte).
    { apply Z.bits_inj'. intros i Hi.
      rewrite low3_testbit, low4_testbit by done.
      destruct (decide (i = 3)) as [->|Hne].
      - by rewrite Hbit3.
      - f_equal. destruct (Z.ltb_spec i 3), (Z.ltb_spec i 4); (done || lia). }
    by rewrite H.
Qed.

Lemma low3_is_low4_masked_witness :
  low3 2 = Z.land (low4 2) 7 ∧
  low3 2 = low4 2 ∧
  get size_map (low3 2) "unknown" = get size_map (low4 2) "unknown".
Proof.
  destruct (low3_is_low4_masked 2) as [Hmask Heq].
  split; [exact Hmask | apply Heq; reflexivity].
Defined.

End Candidates.

(** ** Substring containment *)

Lemma byte_eqb_true (x y : byte) : Byte.eqb x y = true ↔ x = y.
Proof. split; [apply Byte.byte_dec_bl | apply Byte.byte_dec_lb]. Qed.

Lemma startswith_spec (s content : list byte) :
  Py.startswith s content = true ↔ ∃ post, content = s ++ post.
Proof.
  revert content. induction s as [|x s IH]; intros content; simpl.
  - split; [eauto | done].
  - destruct content as [|y content].
    + split; [done | intros [post Hpost]; discriminate].
    + rewrite andb_true_iff, byte_eqb_true, IH. split.
      * intros [-> [post ->]]. by exists post.
      * intros [post Hpost]. injection Hpost as -> ->. eauto.
Qed.

Lemma bytes_in_spec (s content : list byte) :
  Py.bytes_in s content = true ↔ occurs s content.
Proof.
  unfold occurs. induction content as [|y content IH]; simpl.
  - rewrite orb_false_r, startswith_spec. split.
    + intros [post Hpost]. by exists [], post.
    + intros (pre & post & Hc). exists post.
      destruct pre; [done | discriminate].
  - rewrite orb_true_iff, startswith_spec, IH. split.
    + intros [[post Hpost] | (pre & post & ->)].
      * by exists [], post.
      * by exists (y :: pre), post.
    + intros (pre & post & Hc). destruct pre as [|z pre]; simpl in Hc.
      * left. by exists post.
      * right. injection Hc as -> ->. by exists pre, post.
Qed.

Lemma occurs_shorter (s t content : list byte) :
  occurs (s ++ t) content → occurs s content.
Proof.
  intros (pre & post & ->). exists pre, (t ++ post). by rewrite <- app_assoc.
Qed.

Lemma bytes_in_shorter (s t content : list byte) :
  Py.bytes_in (s ++ t) content = true → Py.bytes_in s content = true.
Proof. rewrite !bytes_in_spec. apply occurs_shorter. Qed.

(** ** Running the scripts *)

Lemma bind_run {A B : Type} (m : Script A) (k : A → Script B) (w : world) :
  (m ≫= k) w =
  match m w with
  | (Return a, w') => k a w'
  | (Raise e, w') => (Raise e, w')
  end.
Proof. reflexivity. Qed.

Lemma keeps_files_ret {A : Type} (a : A) : keeps_files (mret a).
Proof. by intros w. Qed.

Lemma keeps_files_raise {A : Type} (e : exception) : keeps_files (@raise A e).
Proof. by intros w. Qed.

Lemma keeps_files_print (s : string) : keeps_files (print s).
Proof. by intros w. Qed.

Lemma keeps_files_open_rb (fn : string) : keeps_files (open_rb fn).
Proof.
  intros w. unfold open_rb.
  by destruct (files w !! fn) as [[[] ?|]|].
Qed.

Lemma keeps_files_item {A : Type} (l : list A) (i : nat) :
  keeps_files (item l i).
Proof. intros w. unfold item. by destruct (l !! i). Qed.

Lemma keeps_files_bind {A B : Type} (m : Script A) (k : A → Script B) :
  keeps_files m → (∀ a, keeps_files (k a)) → keeps_files (m ≫= k).
Proof.
  intros Hm Hk w. rewrite bind_run. specialize (Hm w).
  destruct (m w) as [[a|e] w']; simpl in *.
  - by rewrite Hk.
  - done.
Qed.

Lemma keeps_files_for_each {A : Type} (l : list A) (body : A → Script unit) :
  (∀ x, keeps_files (body x)) → keeps_files (for_each l body).
Proof.
  intros Hbody. induction l as [|x l IH]; simpl.
  - apply keeps_files_ret.
  - by apply keeps_files_bind.
Qed.

Lemma keeps_files_try {A : Type} (body handler : Script A) :
  keeps_files body → keeps_files handler →
  keeps_files (try_except_FileNotFoundError body handler).
Proof.
  intros Hb Hh w. unfold try_except_FileNotFoundError. specialize (Hb w).
  destruct (body w) as [[a|[]] w']; simpl in *; try done.
  by rewrite Hh.
Qed.

Create HintDb keeps_files.
#[local] Hint Resolve keeps_files_ret keeps_files_raise keeps_files_print
  keeps_files_open_rb keeps_files_item keeps_files_bind keeps_files_for_each
  keeps_files_try : keeps_files.

Lemma keeps_files_parse_image_header (argv : list string) :
  keeps_files (parse_image_header argv).
Proof.
  unfold parse_image_header, sys_exit.
  repeat (apply keeps_files_bind; [|intros ?]);
    try case_decide; try case_match; auto 6 with keeps_files.
Qed.

Lemma keeps_files_scan_firmware : keeps_files scan_firmware.
Proof.
  unfold scan_firmware, sys_exit.
  repeat (apply keeps_files_bind; [|intros ?]);
    try case_decide; auto 6 with keeps_files.
Qed.

Lemma files_after_run (script : Script unit) (fs : gmap string node) :
  keeps_files script → files_after (run script fs) = fs.
Proof.
  intros Hk. unfold run. specialize (Hk (World fs [])).
  by destruct (script (World fs [])) as [r w].
Qed.

(** The marker scan prints, in the order of the list, one line for each
    marker that the content holds. *)
Lemma for_each_markers (l : list (list byte)) (content : list byte) (w : world) :
  for_each l (λ s,
    if Py.bytes_in s content then print (marker_line s) else mret tt) w =
  (Return tt,
   World (files w)
     (stdout w ++
      map marker_line (List.filter (λ s, Py.bytes_in s content) l))).
Proof.
  revert w. induction l as [|s l IH]; intros [fs out]; simpl.
  - by rewrite app_nil_r.
  - rewrite bind_run. destruct (Py.bytes_in s content); simpl.
    + rewrite IH. simpl. by rewrite <- app_assoc.
    + by rewrite IH.
Qed.

Lemma run_mret {A B : Type} (a : A) (k : A → Script B) (w : world) :
  (mret a ≫= k) w = k a w.
Proof. reflexivity. Qed.

Lemma run_print {B : Type} (s : string) (k : unit → Script B) (w : world) :
  (print s ≫= k) w = k tt (World (files w) (stdout w ++ [s])).
Proof. reflexivity. Qed.

Lemma run_item {A B : Type} (l : list A) (i : nat) (x : A)
    (k : A → Script B) (w : world) :
  l !! i = Some x → (item l i ≫= k) w = k x w.
Proof. intros Hl. rewrite bind_run. unfold item. by rewrite Hl. Qed.

Lemma run_item_out_of_range {A B : Type} (l : list A) (i : nat)
    (k : A → Script B) (w : world) :
  l !! i = None → (item l i ≫= k) w = (Raise IndexError, w).
Proof. intros Hl. rewrite bind_run. unfold item. by rewrite Hl. Qed.

Lemma run_open_rb {B : Type} (fn : string) (content : list byte)
    (k : list byte → Script B) (w : world) :
  files w !! fn = Some (RegularFile true content) →
  (open_rb fn ≫= k) w = k content w.
Proof. intros Hf. rewrite bind_run. unfold open_rb. by rewrite Hf. Qed.

Section Runs.

Variable fs : gmap string node.
Variable argv : list string.
Variable fn : string.
Variable content : list byte.

Hypothesis argv_1 : argv !! 1%nat = Some fn.
Hypothesis file_fn : fs !! fn = Some (RegularFile true content).

Lemma run_too_small :
  (length content < 8)%nat →
  run (parse_image_header argv) fs =
  Outcome ["File too small"] (Exited 2) fs.
Proof.
  intros Hlen. unfold run, parse_image_header.
  rewrite (run_item _ _ _ _ _ argv_1).
  rewrite (run_open_rb fn content) by done.
  cbv zeta. case_decide as Hd.
  - reflexivity.
  - exfalso. apply Hd. unfold Py.read. rewrite length_firstn. lia.
Qed.

Lemma run_report (x0 x1 x2 : byte) (rest : list byte) :
  content = x0 :: x1 :: x2 :: rest →
  (8 ≤ length content)%nat →
  run (parse_image_header argv) fs =
  Outcome
    (field_lines (Py.list_of_bytes (firstn 32 content))
       (Py.int_of_byte x0) (Py.int_of_byte x1) (Py.int_of_byte x2) ++
     found_lines content ++ [done_line])
    (Exited 0) fs.
Proof.
  intros Hc Hlen. unfold run, parse_image_header.
  rewrite (run_item _ _ _ _ _ argv_1).
  rewrite (run_open_rb fn content) by done.
  cbv zeta. case_decide as Hd.
  { exfalso. unfold Py.read in Hd. rewrite length_firstn in Hd. lia. }
  rewrite run_mret, run_print.
  rewrite (run_item _ 0 (Py.int_of_byte x0)) by (by rewrite Hc).
  rewrite (run_item _ 1 (Py.int_of_byte x1)) by (by rewrite Hc).
  rewrite (run_item _ 2 (Py.int_of_byte x2)) by (by rewrite Hc).
  rewrite !run_print.
  rewrite (run_open_rb fn content) by done.
  rewrite bind_run, for_each_markers.
  reflexivity.
Qed.

End Runs.

(** The runs that never reach the header: no second argument, or a path
    that cannot be opened. *)
Lemma run_no_argument (fs : gmap string node) (argv : list string) :
  argv !! 1%nat = None →
  run (parse_image_header argv) fs = Outcome [] (Traceback IndexError) fs.
Proof.
  intros Hargv. unfold run, parse_image_header.
  by rewrite run_item_out_of_range.
Qed.

Lemma run_cannot_open (fs : gmap string node) (argv : list string)
    (fn : string) (e : exception) :
  argv !! 1%nat = Some fn →
  open_error (fs !! fn) = Some e →
  run (parse_image_header argv) fs = Outcome [] (Traceback e) fs.
Proof.
  intros Hargv Herr. unfold run, parse_image_header.
  rewrite (run_item _ _ _ _ _ Hargv), bind_run. unfold open_rb. simpl.
  destruct (fs !! fn) as [[[] ?|]|]; simplify_eq/=; done.
Qed.

(** Every run is of one of the four kinds. *)
Lemma run_kinds (fs : gmap string node) (argv : list string) :
  run_kind fs argv (run (parse_image_header argv) fs).
Proof.
  destruct (argv !! 1%nat) as [fn|] eqn:Hargv.
  2: { rewrite run_no_argument by done. by constructor. }
  destruct (open_error (fs !! fn)) as [e|] eqn:Herr.
  { rewrite (run_cannot_open fs argv fn e) by done. by econstructor. }
  destruct (fs !! fn) as [[[] content|]|] eqn:Hfile; simplify_eq/=.
  destruct (decide (length content < 8)%nat) as [Hlt|Hge].
  { rewrite (run_too_small fs argv fn content) by done. by econstructor. }
  destruct content as [|x0 [|x1 [|x2 rest]]]; simpl in Hge; try lia.
  rewrite (run_report fs argv fn _ Hargv Hfile x0 x1 x2 rest) by (done || simpl; lia).
  eapply Report; eauto. simpl. lia.
Qed.

(** ** Telling the lines of a report apart *)

Lemma marker_line_head (m : list byte) :
  marker_line m = String "F" ("ound ascii marker: " +:+ Py.decode_ignore m).
Proof. reflexivity. Qed.

Lemma field_lines_not_marker (b : list Z) (x0 x1 x2 : Z) (m : list byte) :
  marker_line m ∉ field_lines b x0 x1 x2.
Proof.
  rewrite marker_line_head. unfold field_lines. intros Hin.
  repeat (apply elem_of_cons in Hin as [Heq|Hin]; [discriminate Heq|]).
  by apply elem_of_nil in Hin.
Qed.

Lemma done_line_not_marker (m : list byte) : marker_line m ≠ done_line.
Proof. rewrite marker_line_head. discriminate. Qed.

Lemma is_marker_line_marker (m : list byte) :
  is_marker_line (marker_line m) = true.
Proof. reflexivity. Qed.

Lemma filter_map_all {A B : Type} (f : B → bool) (g : A → B) (l : list A) :
  (∀ x, f (g x) = true) → List.filter f (map g l) = map g l.
Proof.
  intros Hf. induction l as [|x l IH]; simpl; [done|].
  by rewrite Hf, IH.
Qed.

Lemma filter_map_none {A B : Type} (f : B → bool) (g : A → B) (l : list A) :
  (∀ x, f (g x) = false) → List.filter f (map g l) = [].
Proof.
  intros Hf. induction l as [|x l IH]; simpl; [done|].
  by rewrite Hf, IH.
Qed.

Lemma prefix_marker_line (c : ascii) (label : string) (m : list byte) :
  c ≠ "F"%char → String.prefix (String c label) (marker_line m) = false.
Proof.
  intros Hc. rewrite marker_line_head. simpl.
  by destruct (ascii_dec c "F").
Qed.

Lemma lines_starting_found (c : ascii) (label : string) (content : list byte) :
  c ≠ "F"%char → lines_starting (String c label) (found_lines content) = [].
Proof.
  intros Hc. apply filter_map_none. intros m. by apply prefix_marker_line.
Qed.

(** Markers are told apart by their lines. *)
Lemma marker_line_inj (m m' : list byte) :
  m ∈ markers → m' ∈ markers → marker_line m = marker_line m' → m = m'.
Proof.
  unfold markers. simpl. intros Hm Hm' Heq.
  rewrite !elem_of_cons, elem_of_nil in Hm, Hm'.
  repeat destruct Hm as [Hm|Hm]; try contradiction;
    repeat destruct Hm' as [Hm'|Hm']; try contradiction;
    subst; (reflexivity || discriminate Heq).
Qed.

Lemma markers_NoDup : NoDup markers.
Proof.
  unfold markers. simpl.
  repeat (apply NoDup_cons; split;
    [ rewrite ?elem_of_cons, elem_of_nil; intros Hin;
      repeat (destruct Hin as [Hin|Hin]; [discriminate Hin|]); exact Hin | ]).
  apply NoDup_nil_2.
Qed.

Lemma found_lines_elem (content m : list byte) :
  m ∈ markers →
  marker_line m ∈ found_lines content ↔ Py.bytes_in m content = true.
Proof.
  intros Hm. unfold found_lines. rewrite list_elem_of_fmap. split.
  - intros (m' & Heq & Hin). apply list_elem_of_In, filter_In in Hin as [Hin HP].
    apply list_elem_of_In in Hin.
    by rewrite (marker_line_inj m m' Hm Hin Heq).
  - intros HP. exists m. split; [done|].
    apply list_elem_of_In, filter_In. split; [by apply list_elem_of_In|done].
Qed.

Lemma count_occ_not_elem (l : list string) (x : string) :
  x ∉ l → count_occ string_dec l x = 0%nat.
Proof. rewrite list_elem_of_In. apply count_occ_not_In. Qed.

Lemma count_occ_found (l : list (list byte)) (P : list byte → bool)
    (m : list byte) :
  NoDup l → (∀ m', m' ∈ l → marker_line m = marker_line m' → m = m') →
  m ∈ l →
  count_occ string_dec (map marker_line (List.filter P l)) (marker_line m) =
  (if P m then 1 else 0)%nat.
Proof.
  induction l as [|a l IH]; intros Hnd Hinj Hm.
  - by apply elem_of_nil in Hm.
  - apply NoDup_cons in Hnd as [Ha Hnd].
    assert (Hrest : ∀ m', m' ∈ l → marker_line m = marker_line m' → m = m').
    { intros m' Hm'. apply Hinj. by right. }
    apply elem_of_cons in Hm as [->|Hm].
    + assert (Hzero : count_occ string_dec
                (map marker_line (List.filter P l)) (marker_line a) = 0%nat).
      { apply count_occ_not_elem. rewrite list_elem_of_fmap.
        intros (m' & Heq & Hin).
        apply list_elem_of_In, filter_In in Hin as [Hin _].
        apply list_elem_of_In in Hin.
        apply Ha. by rewrite (Hrest m' Hin Heq). }
      cbn [List.filter]. destruct (P a); cbn [map count_occ]; [|done].
      destruct (string_dec (marker_line a) (marker_line a)); [|done].
      by rewrite Hzero.
    + cbn [List.filter]. destruct (P a) eqn:HPa; cbn [map count_occ];
        [|by apply IH].
      destruct (string_dec (marker_line a) (marker_line m)) as [Heq|Hne].
      * exfalso. apply Ha.
        by rewrite <- (Hinj a (list_elem_of_here a l) (eq_sym Heq)).
      * by apply IH.
Qed.

(** ** The properties of the decoder *)

(** C2: when the header window, the first min(filesize, 32) bytes of the
    file, holds fewer than 8 bytes (the empty file included), the decoder
    prints "File too small" and nothing else, and ends through [sys.exit]
    with status 2, which is not the status of a run on a missing file. *)
Theorem too_small_exits_with_2 (fs : gmap string node) (argv : list string)
    (fn : string) (content : list byte) :
  argv !! 1%nat = Some fn →
  fs !! fn = Some (RegularFile true content) →
  (length (Py.read content (Some 32%nat)) < 8)%nat →
  let r := run (parse_image_header argv) fs in
  length (Py.read content (Some 32%nat)) = (length content `min` 32)%nat ∧
  output r = ["File too small"] ∧
  text (output r) = "File too small" +:+ newline ∧
  status r = Exited 2 ∧
  exit_status (status r) = 2 ∧
  exit_status (status (run (parse_image_header argv) (delete fn fs))) ≠
    exit_status (status r).
Proof.
  intros Hargv Hfile Hwin r.
  assert (Hlen : length (Py.read content (Some 32%nat)) =
                 (length content `min` 32)%nat).
  { unfold Py.read. rewrite length_firstn. lia. }
  assert (Hr : r = Outcome ["File too small"] (Exited 2) fs).
  { apply (run_too_small fs argv fn content Hargv Hfile). lia. }
  rewrite Hr.
  rewrite (run_cannot_open (delete fn fs) argv fn FileNotFoundError Hargv)
    by (by rewrite lookup_delete_eq).
  repeat split; done.
Qed.

Lemma too_small_exits_with_2_witness :
  let r := run (parse_image_header [script_name; "empty.bin"]) sample_files in
  output r = ["File too small"] ∧ status r = Exited 2.
Proof.
  destruct (too_small_exits_with_2 sample_files [script_name; "empty.bin"]
              "empty.bin" []) as (_ & Hout & _ & Hst & _).
  - reflexivity.
  - reflexivity.
  - simpl. lia.
  - split; [exact Hout | exact Hst].
Defined.

(** C3, as stated, fails on a file shorter than 8 bytes: the three bytes
    of "4MB" hold the marker "4MB", and the run reports no marker. *)
Lemma short_file_marker_not_reported :
  ¬ (∀ m : list byte, m ∈ markers →
       marker_line m ∈
         output (run (parse_image_header [script_name; "tiny.bin"]) sample_files)
       ↔ occurs m (Py.bytes_lit "4MB")).
Proof.
  intros Hclaim.
  assert (Hm : Py.bytes_lit "4MB" ∈ markers).
  { unfold markers. simpl. do 3 right. left. }
  apply Hclaim in Hm as [_ Hrep].
  assert (Hin : marker_line (Py.bytes_lit "4MB") ∈ ["File too small"]).
  { apply Hrep. by exists [], []. }
  apply list_elem_of_singleton in Hin. discriminate Hin.
Qed.

(** C3, amended: on a file of at least 8 bytes, each marker of the fixed
    list is reported if and only if its bytes occur somewhere in the whole
    content of the file, then by exactly one "Found ascii marker" line; the
    marker lines of the output are those of the markers found, in the order
    of the list. *)
Theorem markers_reported_iff_present (fs : gmap string node)
    (argv : list string) (fn : string) (content : list byte) :
  argv !! 1%nat = Some fn →
  fs !! fn = Some (RegularFile true content) →
  (8 ≤ length content)%nat →
  let out := output (run (parse_image_header argv) fs) in
  markers = map Py.bytes_lit ["4096"; "8192"; "8MB"; "4MB"; "8192k"; "4096k"] ∧
  (∀ m : list byte, m ∈ markers →
     (marker_line m ∈ out ↔ occurs m content) ∧
     count_occ string_dec out (marker_line m) =
       (if Py.bytes_in m content then 1 else 0)%nat) ∧
  List.filter is_marker_line out =
    map marker_line (List.filter (λ m, Py.bytes_in m content) markers).
Proof.
  intros Hargv Hfile Hlen out.
  destruct content as [|x0 [|x1 [|x2 rest]]] eqn:Hc; simpl in Hlen; try lia.
  rewrite <- Hc in *.
  assert (Hout : out =
    field_lines (Py.list_of_bytes (firstn 32 content))
      (Py.int_of_byte x0) (Py.int_of_byte x1) (Py.int_of_byte x2) ++
    found_lines content ++ [done_line]).
  { unfold out.
    rewrite (run_report fs argv fn content Hargv Hfile x0 x1 x2 rest Hc);
      [done | rewrite Hc; simpl; lia]. }
  rewrite Hout. clear Hout out. split; [reflexivity|]. split.
  - intros m Hm. split.
    + rewrite !elem_of_app, list_elem_of_singleton.
      rewrite (found_lines_elem content m Hm), bytes_in_spec. split.
      * intros [Hf|[Hfound|Hd]]; [|done|].
        -- by apply field_lines_not_marker in Hf.
        -- by apply done_line_not_marker in Hd.
      * intros Hocc. right. by left.
    + rewrite !count_occ_app.
      rewrite (count_occ_not_elem (field_lines _ _ _ _))
        by apply field_lines_not_marker.
      rewrite (count_occ_not_elem [done_line]).
      2: { rewrite list_elem_of_singleton. apply done_line_not_marker. }
      unfold found_lines.
      rewrite (count_occ_found markers _ m markers_NoDup); [lia| |done].
      intros m' Hm'. by apply marker_line_inj.
  - rewrite !List.filter_app. unfold found_lines.
    rewrite (filter_map_all is_marker_line marker_line)
      by apply is_marker_line_marker.
    change (List.filter is_marker_line [done_line]) with (@nil string).
    change (List.filter is_marker_line (field_lines ?b ?x ?y ?z))
      with (@nil string).
    by rewrite app_nil_r.
Qed.

Lemma markers_reported_iff_present_witness :
  let out :=
    output (run (parse_image_header [script_name; "firmware.bin"]) sample_files) in
  marker_line (Py.bytes_lit "8192k") ∈ out ∧
  count_occ string_dec out (marker_line (Py.bytes_lit "8192k")) = 1%nat ∧
  count_occ string_dec out (marker_line (Py.bytes_lit "4MB")) = 0%nat ∧
  List.filter is_marker_line out =
    ["Found ascii marker: 8192"; "Found ascii marker: 8192k"].
Proof.
  destruct (markers_reported_iff_present sample_files
              [script_name; "firmware.bin"] "firmware.bin" esp_image)
    as (_ & Hm & Horder).
  - reflexivity.
  - reflexivity.
  - simpl. lia.
  - split; [|split; [|split]].
    + apply (Hm (Py.bytes_lit "8192k")).
      * unfold markers. simpl. do 4 right. left.
      * by exists (firstn 14 esp_image), [].
    + apply (Hm (Py.bytes_lit "8192k")).
      unfold markers. simpl. do 4 right. left.
    + apply (Hm (Py.bytes_lit "4MB")).
      unfold markers. simpl. do 3 right. left.
    + exact Horder.
Defined.

(** C4: on a file of at least 8 bytes the report opens with the hex dump
    and then holds one magic line for the byte at offset 0, one segment
    count line for the byte at offset 1, one raw line for the configuration
    byte at offset 2 and three candidate lines, whatever the bytes are; the
    rest is the marker scan and the completion line.  A file that starts
    with E9 03 02 gives magic 0xe9, segment count 3, configuration byte
    0x02 (00000010), and the candidates 2 "4MB", 2 "4MB" and 0 "1MB". *)
Theorem report_fields_and_three_candidates (fs : gmap string node)
    (argv : list string) (fn : string) (content : list byte) :
  argv !! 1%nat = Some fn →
  fs !! fn = Some (RegularFile true content) →
  (8 ≤ length content)%nat →
  let out := output (run (parse_image_header argv) fs) in
  (∃ magic seg_count spi_byte : byte,
     content !! 0%nat = Some magic ∧
     content !! 1%nat = Some seg_count ∧
     content !! 2%nat = Some spi_byte ∧
     out =
       [ header_line (Py.list_of_bytes (firstn 32 content));
         magic_line (Py.int_of_byte magic);
         seg_count_line (Py.int_of_byte seg_count);
         spi_byte_line (Py.int_of_byte spi_byte);
         "Decoded candidates:";
         candidate_line " - lower 3 bits ->" (low3 (Py.int_of_byte spi_byte));
         candidate_line " - lower 4 bits ->" (low4 (Py.int_of_byte spi_byte));
         candidate_line " - upper 3 bits ->" (high3 (Py.int_of_byte spi_byte)) ]
       ++ found_lines content ++ [done_line]) ∧
  length (lines_starting "Magic:" out) = 1%nat ∧
  length (lines_starting "Segment count:" out) = 1%nat ∧
  length (lines_starting "Raw spi byte:" out) = 1%nat ∧
  length (lines_starting " - " out) = 3%nat ∧
  (∀ rest : list byte, content = xe9 :: x03 :: x02 :: rest →
     firstn 7 (drop 1 out) =
       [ "Magic: 0xe9"; "Segment count: 3"; "Raw spi byte: 0x02 (00000010)";
         "Decoded candidates:"; " - lower 3 bits -> 2 4MB";
         " - lower 4 bits -> 2 4MB"; " - upper 3 bits -> 0 1MB" ]).
Proof.
  intros Hargv Hfile Hlen out.
  destruct content as [|x0 [|x1 [|x2 rest]]] eqn:Hc; simpl in Hlen; try lia.
  rewrite <- Hc in *.
  assert (Hout : out =
    field_lines (Py.list_of_bytes (firstn 32 content))
      (Py.int_of_byte x0) (Py.int_of_byte x1) (Py.int_of_byte x2) ++
    found_lines content ++ [done_line]).
  { unfold out.
    rewrite (run_report fs argv fn content Hargv Hfile x0 x1 x2 rest Hc);
      [done | rewrite Hc; simpl; lia]. }
  rewrite Hout. clear Hout out.
  assert (Hcount : ∀ (c : ascii) (label : string), c ≠ "F"%char →
    lines_starting (String c label)
      (field_lines (Py.list_of_bytes (firstn 32 content))
         (Py.int_of_byte x0) (Py.int_of_byte x1) (Py.int_of_byte x2) ++
       found_lines content ++ [done_line]) =
    lines_starting (String c label)
      (field_lines (Py.list_of_bytes (firstn 32 content))
         (Py.int_of_byte x0) (Py.int_of_byte x1) (Py.int_of_byte x2)) ++
    lines_starting (String c label) [done_line]).
  { intros c label Hne. unfold lines_starting at 1.
    rewrite !List.filter_app.
    fold (lines_starting (String c label) (found_lines content)).
    by rewrite lines_starting_found. }
  split; [|split; [|split; [|split; [|split]]]].
  - exists x0, x1, x2. by rewrite Hc.
  - by rewrite Hcount.
  - by rewrite Hcount.
  - by rewrite Hcount.
  - by rewrite Hcount.
  - intros rest' Hrest. rewrite Hc in Hrest. simplify_eq. reflexivity.
Qed.

Lemma report_fields_and_three_candidates_witness :
  let out :=
    output (run (parse_image_header [script_name; "firmware.bin"]) sample_files) in
  firstn 7 (drop 1 out) =
    [ "Magic: 0xe9"; "Segment count: 3"; "Raw spi byte: 0x02 (00000010)";
      "Decoded candidates:"; " - lower 3 bits -> 2 4MB";
      " - lower 4 bits -> 2 4MB"; " - upper 3 bits -> 0 1MB" ] ∧
  length (lines_starting " - " out) = 3%nat.
Proof.
  destruct (report_fields_and_three_candidates sample_files
              [script_name; "firmware.bin"] "firmware.bin" esp_image)
    as (_ & _ & _ & _ & Hthree & Hexample).
  - reflexivity.
  - reflexivity.
  - simpl. lia.
  - split; [|exact Hthree].
    apply (Hexample ([x20; x00; x00; x00; x00] ++ Py.bytes_lit "flash 8192k")).
    reflexivity.
Defined.

(** C5, on the code: a run on a path that does not exist prints nothing
    and ends on a [FileNotFoundError] that nobody catches, so the
    interpreter reports a traceback and status 1; the same holds for a
    file without read permission and for a directory.  The sibling script
    catches the exception, prints a message and leaves through
    [SystemExit(1)]. *)
Theorem missing_file_is_an_uncaught_exception :
  let r := run (parse_image_header [script_name; "missing.bin"]) sample_files in
  sample_files !! "missing.bin" = None ∧
  output r = [] ∧
  status r = Traceback FileNotFoundError ∧
  exit_status (status r) = 1 ∧
  status (run (parse_image_header [script_name; "locked.bin"]) sample_files) =
    Traceback PermissionError ∧
  status (run (parse_image_header [script_name; "build"]) sample_files) =
    Traceback IsADirectoryError ∧
  sample_files !! firmware_path = None ∧
  output (run scan_firmware sample_files) = ["MISSING " +:+ firmware_path] ∧
  status (run scan_firmware sample_files) = Exited 1.
Proof. repeat split. Qed.

(** C6: a run that reaches the report ends with the completion line and
    with status 0, and a candidate whose value has no entry in the size
    table is printed with the label "unknown"; so it is when the three
    candidates are unknown and no marker is found. *)
Theorem unknown_candidates_never_abort (fs : gmap string node)
    (argv : list string) (fn : string) (content : list byte) :
  argv !! 1%nat = Some fn →
  fs !! fn = Some (RegularFile true content) →
  (8 ≤ length content)%nat →
  let r := run (parse_image_header argv) fs in
  status r = Exited 0 ∧
  exit_status (status r) = 0 ∧
  last (output r) = Some done_line ∧
  (∃ spi_byte : byte,
     content !! 2%nat = Some spi_byte ∧
     ∀ (rule : string) (value : Z),
       (rule, value) ∈
         [ (" - lower 3 bits ->", low3 (Py.int_of_byte spi_byte));
           (" - lower 4 bits ->", low4 (Py.int_of_byte spi_byte));
           (" - upper 3 bits ->", high3 (Py.int_of_byte spi_byte)) ] →
       candidate_line rule value ∈ output r ∧
       (size_map !! value = None →
        candidate_line rule value =
          rule +:+ " " +:+ Py.str value +:+ " " +:+ "unknown")) ∧
  (content = all_unknown_image →
   output r =
     [ "Header bytes: 00 00 77 00 00 00 00 00"; "Magic: 0x00";
       "Segment count: 0"; "Raw spi byte: 0x77 (01110111)";
       "Decoded candidates:"; " - lower 3 bits -> 7 unknown";
       " - lower 4 bits -> 7 unknown"; " - upper 3 bits -> 7 unknown";
       done_line ]).
Proof.
  intros Hargv Hfile Hlen r.
  destruct content as [|x0 [|x1 [|x2 rest]]] eqn:Hc; simpl in Hlen; try lia.
  rewrite <- Hc in *.
  assert (Hr : r = Outcome
    (field_lines (Py.list_of_bytes (firstn 32 content))
       (Py.int_of_byte x0) (Py.int_of_byte x1) (Py.int_of_byte x2) ++
     found_lines content ++ [done_line]) (Exited 0) fs).
  { apply (run_report fs argv fn content Hargv Hfile x0 x1 x2 rest Hc).
    rewrite Hc. simpl. lia. }
  rewrite Hr. clear Hr r. cbn [output status exit_status].
  split; [done|]. split; [done|]. split; [|split].
  - by rewrite app_assoc, last_snoc.
  - exists x2. split; [by rewrite Hc|].
    intros rule value Hin. split.
    + apply elem_of_app. left. unfold field_lines.
      rewrite !elem_of_cons, elem_of_nil in Hin.
      destruct Hin as [Heq|[Heq|[Heq|[]]]]; simplify_eq; set_solver.
    + intros Hnone. unfold candidate_line, get. by rewrite Hnone.
  - intros Hall. rewrite Hall in Hc. unfold all_unknown_image in Hc.
    injection Hc as <- <- <- <-. rewrite Hall. reflexivity.
Qed.

Lemma unknown_candidates_never_abort_witness :
  let r := run (parse_image_header [script_name; "blank.bin"]) sample_files in
  status r = Exited 0 ∧
  output r =
    [ "Header bytes: 00 00 77 00 00 00 00 00"; "Magic: 0x00";
      "Segment count: 0"; "Raw spi byte: 0x77 (01110111)";
      "Decoded candidates:"; " - lower 3 bits -> 7 unknown";
      " - lower 4 bits -> 7 unknown"; " - upper 3 bits -> 7 unknown";
      done_line ].
Proof.
  destruct (unknown_candidates_never_abort sample_files
              [script_name; "blank.bin"] "blank.bin" all_unknown_image)
    as (Hst & _ & _ & _ & Hout).
  - reflexivity.
  - reflexivity.
  - simpl. lia.
  - split; [exact Hst | apply Hout; reflexivity].
Defined.

(** C7: the decoder leaves the files as they are, and a second run on
    them prints the same output, character for character, and ends with
    the same status. *)
Theorem decoder_is_deterministic (fs : gmap string node) (argv : list string) :
  let first := run (parse_image_header argv) fs in
  let second := run (parse_image_header argv) (files_after first) in
  files_after first = fs ∧
  output second = output first ∧
  text (output second) = text (output first) ∧
  status second = status first ∧
  exit_status (status second) = exit_status (status first).
Proof.
  intros first second.
  assert (Hfiles : files_after first = fs).
  { apply files_after_run, keeps_files_parse_image_header. }
  unfold second. rewrite Hfiles. by fold first.
Qed.

(** C10: whenever "8192k" is reported so is "8192", and whenever "4096k"
    is reported so is "4096": the shorter marker is a run of bytes of the
    longer one. *)
Theorem longer_marker_brings_shorter (fs : gmap string node)
    (argv : list string) :
  let out := output (run (parse_image_header argv) fs) in
  (Py.bytes_lit "8192k" = Py.bytes_lit "8192" ++ Py.bytes_lit "k" ∧
   Py.bytes_lit "4096k" = Py.bytes_lit "4096" ++ Py.bytes_lit "k") ∧
  (marker_line (Py.bytes_lit "8192k") ∈ out →
   marker_line (Py.bytes_lit "8192") ∈ out) ∧
  (marker_line (Py.bytes_lit "4096k") ∈ out →
   marker_line (Py.bytes_lit "4096") ∈ out).
Proof.
  intros out. split; [by split|].
  assert (Hgen : ∀ short : string,
    Py.bytes_lit short ∈ markers →
    Py.bytes_lit (short +:+ "k") ∈ markers →
    Py.bytes_lit (short +:+ "k") = Py.bytes_lit short ++ Py.bytes_lit "k" →
    marker_line (Py.bytes_lit (short +:+ "k")) ∈ out →
    marker_line (Py.bytes_lit short) ∈ out).
  { intros short Hs Hl Hcat. unfold out.
    destruct (run_kinds fs argv) as [?|fn e ? ?|fn content ? ? ?|
                                     fn x0 x1 x2 rest content ? ? ?];
      cbn [output].
    - intros Hin. by apply elem_of_nil in Hin.
    - intros Hin. by apply elem_of_nil in Hin.
    - intros Hin. apply list_elem_of_singleton in Hin. discriminate Hin.
    - rewrite !elem_of_app.
      intros [Hf|[Hfound|Hd]].
      + by apply field_lines_not_marker in Hf.
      + right. left.
        apply (found_lines_elem content _ Hl) in Hfound.
        apply (found_lines_elem content _ Hs).
        rewrite Hcat in Hfound. by apply bytes_in_shorter in Hfound.
      + apply list_elem_of_singleton in Hd.
        by apply done_line_not_marker in Hd. }
  split.
  - apply (Hgen "8192"); [| |done].
    + unfold markers. simpl. right. left.
    + unfold markers. simpl. do 4 right. left.
  - apply (Hgen "4096"); [| |done].
    + unfold markers. simpl. left.
    + unfold markers. simpl. do 5 right. left.
Qed.

Lemma longer_marker_brings_shorter_witness :
  marker_line (Py.bytes_lit "8192") ∈
    output (run (parse_image_header [script_name; "firmware.bin"]) sample_files).
Proof.
  destruct (longer_marker_brings_shorter sample_files
              [script_name; "firmware.bin"]) as (_ & H8192 & _).
  apply H8192. cbn. do 9 right. left.
Defined.

(** ** [bytes.find] and the scan of the firmware *)

Lemma startswith_bytes_in (p data : list byte) :
  Py.startswith p data = true → Py.bytes_in p data = true.
Proof. intros H. destruct data; simpl in *; by rewrite H. Qed.

Lemma startswith_length (p data : list byte) :
  Py.startswith p data = true → (length p ≤ length data)%nat.
Proof.
  revert data. induction p as [|x p IH]; intros [|y data]; simpl;
    try (discriminate || lia).
  rewrite andb_true_iff. intros [_ H]. apply IH in H. lia.
Qed.

Lemma bytes_in_length (p data : list byte) :
  Py.bytes_in p data = true → (length p ≤ length data)%nat.
Proof.
  induction data as [|y data IH]; simpl.
  - rewrite orb_false_r. apply startswith_length.
  - rewrite orb_true_iff. intros [H|H].
    + apply startswith_length in H. simpl in H. lia.
    + apply IH in H. lia.
Qed.

Lemma find_from_absent (p data : list byte) (off : Z) :
  Py.bytes_in p data = false → find_from p data off = -1.
Proof.
  revert off. induction data as [|y data IH]; intros off; simpl.
  - rewrite orb_false_r. by intros ->.
  - rewrite orb_false_iff. intros [-> H]. by apply IH.
Qed.

Lemma find_from_present (p data : list byte) (off : Z) :
  Py.bytes_in p data = true →
  ∃ pre post : list byte,
    data = pre ++ p ++ post ∧
    find_from p data off = off + Z.of_nat (length pre) ∧
    ∀ pre' post' : list byte,
      data = pre' ++ p ++ post' → (length pre ≤ length pre')%nat.
Proof.
  revert off. induction data as [|y data IH]; intros off Hin.
  - simpl in Hin. rewrite orb_false_r in Hin. simpl. rewrite Hin.
    apply startswith_spec in Hin as [post Hpost].
    exists [], post. repeat split; [done | simpl; lia | intros; simpl; lia].
  - cbn [find_from]. destruct (Py.startswith p (y :: data)) eqn:Hs.
    + apply startswith_spec in Hs as [post Hpost].
      exists [], post. repeat split; [done | simpl; lia | intros; simpl; lia].
    + simpl in Hin. rewrite Hs in Hin. simpl in Hin.
      destruct (IH (off + 1) Hin) as (pre & post & Hd & Hoff & Hmin).
      exists (y :: pre), post. split; [by rewrite Hd|]. split.
      * rewrite Hoff. simpl length. lia.
      * intros pre' post' Hd'. destruct pre' as [|z pre'].
        -- exfalso. assert (Hs' : Py.startswith p (y :: data) = true).
           { apply startswith_spec. by exists post'. }
           congruence.
        -- simpl in Hd'. injection Hd' as _ Hd'.
           specialize (Hmin pre' post' Hd'). simpl. lia.
Qed.

(** X1: [data.find(p)] is -1 exactly when [p] does not occur in [data];
    otherwise it is the offset of the first occurrence. *)
Theorem find_first_occurrence (data p : list byte) :
  (find data p = -1 ↔ ¬ occurs p data) ∧
  (occurs p data →
   ∃ pre post : list byte,
     data = pre ++ p ++ post ∧
     find data p = Z.of_nat (length pre) ∧
     ∀ pre' post' : list byte,
       data = pre' ++ p ++ post' → (length pre ≤ length pre')%nat).
Proof.
  unfold find. split.
  - rewrite <- bytes_in_spec. destruct (Py.bytes_in p data) eqn:Hin.
    + destruct (find_from_present p data 0 Hin) as (pre & post & _ & Hoff & _).
      split; [lia | done].
    + rewrite find_from_absent by done. split; [congruence | done].
  - intros Hocc. apply bytes_in_spec in Hocc.
    destruct (find_from_present p data 0 Hocc) as (pre & post & Hd & Hoff & Hmin).
    exists pre, post. repeat split; [done | lia | done].
Qed.

Lemma find_first_occurrence_witness :
  ∃ pre post : list byte,
    Py.bytes_lit "ab4MB..4MB" = pre ++ Py.bytes_lit "4MB" ++ post ∧
    find (Py.bytes_lit "ab4MB..4MB") (Py.bytes_lit "4MB") =
      Z.of_nat (length pre) ∧
    ∀ pre' post' : list byte,
      Py.bytes_lit "ab4MB..4MB" = pre' ++ Py.bytes_lit "4MB" ++ post' →
      (length pre ≤ length pre')%nat.
Proof.
  apply (proj2 (find_first_occurrence
                  (Py.bytes_lit "ab4MB..4MB") (Py.bytes_lit "4MB"))).
  by exists (Py.bytes_lit "ab"), (Py.bytes_lit "..4MB").
Defined.

Lemma find_found_iff (data p : list byte) :
  find data p ≠ -1 ↔ Py.bytes_in p data = true.
Proof.
  unfold find. destruct (Py.bytes_in p data) eqn:Hin.
  - destruct (find_from_present p data 0 Hin) as (pre & post & _ & Hoff & _).
    split; [done | lia].
  - rewrite find_from_absent by done. split; [done | discriminate].
Qed.

Lemma for_each_patterns (l : list (list byte)) (data : list byte) (w : world) :
  for_each l (λ p,
    let off := find data p in
    if decide (off ≠ -1)
    then print (Py.decode_ignore p +:+ " " +:+ hex off)
    else mret tt) w =
  (Return tt,
   World (files w)
     (stdout w ++
      map (scan_line data) (List.filter (λ p, Py.bytes_in p data) l))).
Proof.
  revert w. induction l as [|p l IH]; intros [fs out]; cbn [for_each].
  - simpl. by rewrite app_nil_r.
  - rewrite bind_run. cbv zeta. cbn [List.filter].
    destruct (decide (find data p ≠ -1)) as [Hf|Hf].
    + apply find_found_iff in Hf. rewrite Hf.
      cbn [print files stdout map]. rewrite IH. cbn [files stdout].
      by rewrite <- app_assoc.
    + assert (Hb : Py.bytes_in p data = false).
      { destruct (Py.bytes_in p data) eqn:Hb; [|done].
        by apply find_found_iff in Hb. }
      rewrite Hb. cbn [mret script_ret]. by rewrite IH.
Qed.

(** X2: without the firmware file, [scan_firmware] prints "MISSING" and
    the path, and leaves with status 1. *)
Theorem scan_firmware_missing_file (fs : gmap string node) :
  fs !! firmware_path = None →
  run scan_firmware fs =
  Outcome ["MISSING .pio\build\esp32-s3-devkitc-1\firmware.bin"] (Exited 1) fs.
Proof.
  intros Hnone. unfold run, scan_firmware. cbv zeta. rewrite bind_run.
  unfold try_except_FileNotFoundError. rewrite bind_run. unfold open_rb.
  cbn [files]. by rewrite Hnone.
Qed.

Lemma scan_firmware_missing_file_witness :
  run scan_firmware sample_files =
  Outcome ["MISSING .pio\build\esp32-s3-devkitc-1\firmware.bin"] (Exited 1)
    sample_files.
Proof. apply scan_firmware_missing_file. reflexivity. Defined.

(** X3: [scan_firmware] catches [FileNotFoundError] only: a firmware path
    that is a directory or a file without read permission ends the run on
    an uncaught exception, with nothing printed. *)
Theorem scan_firmware_catches_only_missing (fs : gmap string node)
    (e : exception) :
  open_error (fs !! firmware_path) = Some e →
  e ≠ FileNotFoundError →
  run scan_firmware fs = Outcome [] (Traceback e) fs ∧
  (e = PermissionError ∨ e = IsADirectoryError).
Proof.
  intros Herr Hne. unfold run, scan_firmware. cbv zeta. rewrite bind_run.
  unfold try_except_FileNotFoundError. rewrite bind_run. unfold open_rb.
  cbn [files].
  destruct (fs !! firmware_path) as [[[] ?|]|]; simplify_eq/=; auto.
Qed.

Lemma scan_firmware_catches_only_missing_witness :
  run scan_firmware (<[firmware_path := Directory]> sample_files) =
  Outcome [] (Traceback IsADirectoryError)
    (<[firmware_path := Directory]> sample_files).
Proof.
  apply (scan_firmware_catches_only_missing
           (<[firmware_path := Directory]> sample_files) IsADirectoryError).
  - reflexivity.
  - discriminate.
Defined.

Lemma scan_lines_elem (data p : list byte) :
  p ∈ patterns →
  scan_line data p ∈ scan_lines data ↔ Py.bytes_in p data = true.
Proof.
  intros Hp. unfold scan_lines. split.
  - rewrite list_elem_of_fmap. intros (p' & Heq & Hin).
    apply list_elem_of_In, filter_In in Hin as [Hin HP].
    apply list_elem_of_In in Hin.
    assert (p = p'); [|by subst].
    unfold scan_line, hex in Heq. unfold patterns in Hp, Hin.
    simpl in Hp, Hin. rewrite !elem_of_cons, elem_of_nil in Hp, Hin.
    repeat destruct Hp as [Hp|Hp]; try contradiction;
      repeat destruct Hin as [Hin|Hin]; try contradiction;
      subst; (reflexivity || discriminate Heq).
  - intros HP. apply list_elem_of_fmap. exists p. split; [done|].
    apply list_elem_of_In, filter_In. split; [by apply list_elem_of_In|done].
Qed.

Lemma scan_firmware_run (fs : gmap string node) (data : list byte) :
  fs !! firmware_path = Some (RegularFile true data) →
  output (run scan_firmware fs) = scan_lines data ∧
  status (run scan_firmware fs) = Exited 0.
Proof.
  intros Hfile.
  assert (Hr : run scan_firmware fs = Outcome (scan_lines data) (Exited 0) fs).
  { unfold run, scan_firmware. cbv zeta. rewrite bind_run.
    unfold try_except_FileNotFoundError. rewrite bind_run. unfold open_rb.
    cbn [files]. rewrite Hfile. cbn [mret script_ret Py.read].
    by rewrite for_each_patterns. }
  by rewrite Hr.
Qed.

(** X4: on a readable firmware file, [scan_firmware] prints one line for
    each pattern that occurs in the file, in the order of the list, with the
    offset of the first occurrence, and ends with status 0; on an empty file
    it prints nothing. *)
Theorem scan_firmware_reports_first_offsets (fs : gmap string node)
    (data : list byte) :
  fs !! firmware_path = Some (RegularFile true data) →
  let r := run scan_firmware fs in
  status r = Exited 0 ∧
  output r =
    map (λ p, Py.decode_ignore p +:+ " " +:+ hex (find data p))
      (List.filter (λ p, Py.bytes_in p data) patterns) ∧
  (∀ p : list byte, p ∈ patterns →
     (scan_line data p ∈ output r ↔ occurs p data)) ∧
  (data = [] → output r = []).
Proof.
  intros Hfile r. destruct (scan_firmware_run fs data Hfile) as [Hout Hst].
  unfold r. rewrite Hout, Hst. split; [done|]. split; [done|]. split.
  - intros p Hp. rewrite <- bytes_in_spec. by apply scan_lines_elem.
  - intros ->. reflexivity.
Qed.

Lemma scan_firmware_reports_first_offsets_witness :
  let fs := <[firmware_path := RegularFile true esp_image]> sample_files in
  status (run scan_firmware fs) = Exited 0 ∧
  output (run scan_firmware fs) = ["8192 0xe"; "8192k 0xe"].
Proof.
  destruct (scan_firmware_reports_first_offsets
              (<[firmware_path := RegularFile true esp_image]> sample_files)
              esp_image) as (Hst & Hout & _).
  - reflexivity.
  - split; [exact Hst | exact Hout].
Defined.

(** X5: the offset that [scan_firmware] prints reads back as the offset:
    [hex(n)] is the sign, "0x" and the hexadecimal digits of [n]. *)
Theorem hex_reads_back (n : Z) :
  hex n = HexString.of_Z n ∧ HexString.to_Z (hex n) = n.
Proof.
  assert (H : hex n = HexString.of_Z n) by (by destruct n).
  split; [done|]. rewrite H. apply HexString.to_Z_of_Z.
Qed.

(** X6: a pattern that extends another one is never found before it: when
    [s ++ t] occurs in the data, [s] occurs too and its first offset is at
    most that of [s ++ t]; so "8192" is printed with an offset no larger
    than that of "8192k". *)
Theorem find_shorter_not_later (data s t : list byte) :
  find data (s ++ t) ≠ -1 →
  0 ≤ find data s ≤ find data (s ++ t).
Proof.
  intros Hfound. apply find_found_iff in Hfound.
  pose proof (bytes_in_shorter s t data Hfound) as Hs.
  unfold find.
  destruct (find_from_present (s ++ t) data 0 Hfound)
    as (pre & post & Hd & Hoff & _).
  destruct (find_from_present s data 0 Hs) as (pre' & post' & _ & Hoff' & Hmin).
  rewrite Hoff, Hoff'.
  specialize (Hmin pre (t ++ post)). rewrite <- app_assoc in Hd.
  specialize (Hmin Hd). lia.
Qed.

Lemma find_shorter_not_later_witness :
  0 ≤ find esp_image (Py.bytes_lit "8192") ≤
    find esp_image (Py.bytes_lit "8192" ++ Py.bytes_lit "k").
Proof. apply find_shorter_not_later. vm_compute. discriminate. Defined.

Lemma patterns_markers : patterns ≡ₚ markers.
Proof.
  unfold patterns, markers. simpl. apply perm_swap.
Qed.

(** X7: the two scripts look for the same six markers, listed in another
    order; run on the same file of at least 8 bytes, the decoder reports a
    marker exactly when the scan prints a line for it. *)
Theorem scripts_report_the_same_markers (fs : gmap string node)
    (argv : list string) (content : list byte) :
  argv !! 1%nat = Some firmware_path →
  fs !! firmware_path = Some (RegularFile true content) →
  (8 ≤ length content)%nat →
  patterns ≡ₚ markers ∧
  ∀ m : list byte, m ∈ markers →
    marker_line m ∈ output (run (parse_image_header argv) fs) ↔
    scan_line content m ∈ output (run scan_firmware fs).
Proof.
  intros Hargv Hfile Hlen. split; [apply patterns_markers|].
  intros m Hm.
  assert (Hp : m ∈ patterns) by (by rewrite patterns_markers).
  destruct (scan_firmware_run fs content Hfile) as [Hout _].
  rewrite Hout, (scan_lines_elem content m Hp).
  destruct content as [|x0 [|x1 [|x2 rest]]] eqn:Hc; simpl in Hlen; try lia.
  rewrite <- Hc in *.
  rewrite (run_report fs argv firmware_path content Hargv Hfile x0 x1 x2 rest Hc)
    by (rewrite Hc; simpl; lia).
  cbn [output]. rewrite !elem_of_app, list_elem_of_singleton.
  rewrite (found_lines_elem content m Hm). split.
  - intros [Hf|[Hfound|Hd]]; [|done|].
    + by apply field_lines_not_marker in Hf.
    + by apply done_line_not_marker in Hd.
  - intros Hin. right. by left.
Qed.

Lemma scripts_report_the_same_markers_witness :
  let fs := <[firmware_path := RegularFile true esp_image]> sample_files in
  marker_line (Py.bytes_lit "8192") ∈
    output (run (parse_image_header [script_name; firmware_path]) fs) ↔
  scan_line esp_image (Py.bytes_lit "8192") ∈ output (run scan_firmware fs).
Proof.
  destruct (scripts_report_the_same_markers
              (<[firmware_path := RegularFile true esp_image]> sample_files)
              [script_name; firmware_path] esp_image) as [_ Hsame].
  - reflexivity.
  - reflexivity.
  - simpl. lia.
  - apply Hsame. unfold markers. simpl. right. left.
Defined.

(** ** More on the runs of the decoder *)

(** X8: the exit status of the decoder is 0, 1 or 2: it is 0 exactly when
    the second argument names a readable file of at least 8 bytes, 2
    exactly when it names a readable file of fewer than 8 bytes, and 1 in
    every other case. *)
Theorem exit_status_by_input (fs : gmap string node) (argv : list string) :
  let st := exit_status (status (run (parse_image_header argv) fs)) in
  (st = 0 ∨ st = 1 ∨ st = 2) ∧
  (st = 0 ↔
   ∃ (fn : string) (content : list byte),
     argv !! 1%nat = Some fn ∧ fs !! fn = Some (RegularFile true content) ∧
     (8 ≤ length content)%nat) ∧
  (st = 2 ↔
   ∃ (fn : string) (content : list byte),
     argv !! 1%nat = Some fn ∧ fs !! fn = Some (RegularFile true content) ∧
     (length content < 8)%nat).
Proof.
  intros st. unfold st.
  destruct (run_kinds fs argv) as [Hargv|fn e Hargv Herr|fn content Hargv Hfile Hlen|
                                   fn x0 x1 x2 rest content Hargv Hfile Hlen];
    cbn [status exit_status].
  - split; [auto|]. split; (split; [discriminate|]);
      intros (fn & content & Ha & _); congruence.
  - split; [auto|]. split; (split; [discriminate|]);
      intros (fn' & content & Ha & Hf & _); simplify_eq;
      rewrite Hf in Herr; discriminate.
  - split; [auto|]. split; split; try discriminate; eauto.
    intros (fn' & content' & Ha & Hf & Hl). simplify_eq. lia.
  - split; [auto|]. split; split; try discriminate; eauto.
    intros (fn' & content' & Ha & Hf & Hl). simplify_eq. lia.
Qed.



Lemma dump_window (c : list byte) :
  firstn 16 (Py.list_of_bytes (firstn 32 c)) = Py.list_of_bytes (firstn 16 c).
Proof.
  unfold Py.list_of_bytes. rewrite firstn_map, firstn_firstn. reflexivity.
Qed.

(** X10: beyond its first 16 bytes a file acts on the report through the
    marker scan only: two files of at least 8 bytes with the same first 16
    bytes and the same markers present give the same output. *)
Theorem report_depends_on_prefix_and_markers (fs1 fs2 : gmap string node)
    (argv1 argv2 : list string) (fn1 fn2 : string) (c1 c2 : list byte) :
  argv1 !! 1%nat = Some fn1 → fs1 !! fn1 = Some (RegularFile true c1) →
  argv2 !! 1%nat = Some fn2 → fs2 !! fn2 = Some (RegularFile true c2) →
  (8 ≤ length c1)%nat → (8 ≤ length c2)%nat →
  firstn 16 c1 = firstn 16 c2 →
  (∀ m : list byte, m ∈ markers → Py.bytes_in m c1 = Py.bytes_in m c2) →
  output (run (parse_image_header argv1) fs1) =
  output (run (parse_image_header argv2) fs2).
Proof.
  intros Ha1 Hf1 Ha2 Hf2 Hl1 Hl2 Hpre Hmark.
  destruct c1 as [|x0 [|x1 [|x2 r1]]] eqn:Hc1; simpl in Hl1; try lia.
  destruct c2 as [|y0 [|y1 [|y2 r2]]] eqn:Hc2; simpl in Hl2; try lia.
  rewrite <- Hc1, <- Hc2 in *.
  rewrite (run_report fs1 argv1 fn1 c1 Ha1 Hf1 x0 x1 x2 r1 Hc1)
    by (rewrite Hc1; simpl; lia).
  rewrite (run_report fs2 argv2 fn2 c2 Ha2 Hf2 y0 y1 y2 r2 Hc2)
    by (rewrite Hc2; simpl; lia).
  cbn [output].
  assert (Hheads : x0 = y0 ∧ x1 = y1 ∧ x2 = y2).
  { rewrite Hc1, Hc2 in Hpre. simpl in Hpre. by simplify_eq. }
  destruct Hheads as (-> & -> & ->).
  assert (Hfound : found_lines c1 = found_lines c2).
  { unfold found_lines. f_equal. apply filter_ext_in.
    intros m Hm. apply Hmark. by apply list_elem_of_In. }
  rewrite Hfound. f_equal. unfold field_lines, header_line.
  by rewrite !dump_window, Hpre.
Qed.

Lemma report_depends_on_prefix_and_markers_witness :
  output (run (parse_image_header [script_name; "firmware.bin"]) sample_files) =
  output (run (parse_image_header [script_name; "padded.bin"])
            {[ "padded.bin" := RegularFile true (esp_image ++ Py.bytes_lit "!!") ]}).
Proof.
  apply (report_depends_on_prefix_and_markers sample_files
           {[ "padded.bin" := RegularFile true (esp_image ++ Py.bytes_lit "!!") ]}
           [script_name; "firmware.bin"] [script_name; "padded.bin"]
           "firmware.bin" "padded.bin"
           esp_image (esp_image ++ Py.bytes_lit "!!")).
  - reflexivity.
  - reflexivity.
  - reflexivity.
  - reflexivity.
  - simpl. lia.
  - simpl. lia.
  - reflexivity.
  - intros m Hm. unfold markers in Hm. simpl in Hm.
    rewrite !elem_of_cons, elem_of_nil in Hm.
    repeat destruct Hm as [Hm|Hm]; try contradiction; subst; reflexivity.
Defined.

(** ** The printed fields *)

(** X11: a byte is printed by [{x:02x}] as two characters and by [{x:08b}]
    as eight, and its hexadecimal, binary and decimal forms read back as
    the byte. *)
Theorem byte_fields_read_back (x : byte) :
  let n := Py.int_of_byte x in
  String.length (Py.format_x 2 n) = 2%nat ∧
  String.length (Py.format_b 8 n) = 8%nat ∧
  HexString.to_Z ("0x" +:+ Py.format_x 2 n) = n ∧
  BinaryString.to_Z ("0b" +:+ Py.format_b 8 n) = n ∧
  option_map Z.of_int (NilZero.int_of_string (Py.str n)) = Some n.
Proof. destruct x; vm_compute; repeat split. Qed.

(** ** More on the candidates *)

Lemma get_known (k : Z) :
  get size_map k "unknown" ≠ "unknown" → 0 ≤ k ≤ 5.
Proof.
  intros Hk. destruct (decide (0 ≤ k ≤ 5)) as [|Hout]; [done|].
  by rewrite get_other in Hk.
Qed.

(** X12: whenever the lower-4-bits candidate resolves to a size, bit 3 of
    the byte is clear and the lower-3-bits candidate has the same value and
    the same size; with bit 3 set the lower-4-bits candidate is always
    "unknown". *)
Theorem low4_known_agrees_with_low3 (spi_byte : Z) :
  (get size_map (low4 spi_byte) "unknown" ≠ "unknown" →
   Z.testbit spi_byte 3 = false ∧
   low3 spi_byte = low4 spi_byte ∧
   get size_map (low3 spi_byte) "unknown" =
     get size_map (low4 spi_byte) "unknown") ∧
  (Z.testbit spi_byte 3 = true →
   get size_map (low4 spi_byte) "unknown" = "unknown").
Proof.
  assert (Hhigh : Z.testbit spi_byte 3 = true → 8 ≤ low4 spi_byte).
  { intros Hbit.
    assert (Hb : Z.testbit (low4 spi_byte) 3 = true).
    { rewrite low4_testbit by lia. by rewrite Hbit. }
    rewrite Z.testbit_true in Hb by lia.
    pose proof (Z.mod_pos_bound (low4 spi_byte / 2 ^ 3) 2).
    assert (0 ≤ low4 spi_byte).
    { rewrite low4_mod. apply Z.mod_pos_bound. lia. }
    change (2 ^ 3) with 8 in *.
    destruct (decide (low4 spi_byte < 8)) as [Hlt|]; [|lia].
    rewrite Z.div_small in Hb by lia. discriminate. }
  split.
  - intros Hknown. apply get_known in Hknown.
    assert (Hbit : Z.testbit spi_byte 3 = false).
    { destruct (Z.testbit spi_byte 3) eqn:Hbit; [|done].
      specialize (Hhigh eq_refl). lia. }
    assert (Heq : low3 spi_byte = low4 spi_byte).
    { rewrite low3_mod, low4_mod in *. symmetry.
      apply (Z.mod_unique spi_byte 8 (2 * (spi_byte / 16))); [lia|].
      pose proof (Z.div_mod spi_byte 16). lia. }
    by rewrite Heq.
  - intros Hbit. specialize (Hhigh Hbit). apply get_other. lia.
Qed.

Lemma low4_known_agrees_with_low3_witness :
  (low3 2 = low4 2) ∧ get size_map (low4 10) "unknown" = "unknown".
Proof.
  destruct (low4_known_agrees_with_low3 2) as [Hknown _].
  destruct (low4_known_agrees_with_low3 10) as [_ Hset].
  split.
  - apply Hknown. vm_compute. discriminate.
  - apply Hset. reflexivity.
Defined.

(** X13: the lower-4-bits and the upper-3-bits candidates hold between
    them the bits 0 to 6 of the byte: a configuration byte is
    [low4 + 16 * high3], plus 128 when its bit 7 is set. *)
Theorem candidates_rebuild_the_byte (spi_byte : Z) :
  0 ≤ spi_byte ≤ 255 →
  spi_byte =
    low4 spi_byte + 16 * high3 spi_byte +
    (if Z.testbit spi_byte 7 then 128 else 0).
Proof.
  intros Hc. rewrite low4_mod, high3_mod.
  assert (H128 : spi_byte mod 128 = spi_byte mod 16 + 16 * ((spi_byte / 16) mod 8)).
  { change 128 with (16 * 8). apply Z.rem_mul_r; lia. }
  rewrite <- H128.
  assert (Hbit : Z.testbit spi_byte 7 = (128 <=? spi_byte)).
  { rewrite Z.testbit_eqb by lia. change (2 ^ 7) with 128.
    destruct (Z.leb_spec 128 spi_byte).
    - replace (spi_byte / 128) with 1; [done|].
      apply Z.div_unique with (spi_byte - 128); lia.
    - by rewrite Z.div_small by lia. }
  rewrite Hbit. destruct (Z.leb_spec 128 spi_byte).
  - assert (Hm : spi_byte - 128 = spi_byte mod 128)
      by (apply (Z.mod_unique spi_byte 128 1); lia).
    lia.
  - rewrite Z.mod_small; lia.
Qed.

Lemma candidates_rebuild_the_byte_witness :
  233 = low4 233 + 16 * high3 233 + (if Z.testbit 233 7 then 128 else 0).
Proof. apply candidates_rebuild_the_byte. lia. Defined.

(** ** The shape of a report *)








(** X15: a pattern longer than the data is never found, by [in] or by
    [find]; the empty pattern is found in any data, at offset 0. *)
Theorem pattern_edge_cases (data p : list byte) :
  ((length data < length p)%nat →
   Py.bytes_in p data = false ∧ find data p = -1) ∧
  Py.bytes_in [] data = true ∧ find data [] = 0.
Proof.
  split; [|split].
  - intros Hlen.
    assert (Hb : Py.bytes_in p data = false).
    { destruct (Py.bytes_in p data) eqn:Hb; [|done].
      apply bytes_in_length in Hb. lia. }
    split; [done|]. unfold find. by apply find_from_absent.
  - by destruct data.
  - by destruct data.
Qed.

Lemma pattern_edge_cases_witness :
  Py.bytes_in (Py.bytes_lit "8192k") (Py.bytes_lit "8192") = false ∧
  find (Py.bytes_lit "8192") (Py.bytes_lit "8192k") = -1.
Proof.
  apply (pattern_edge_cases (Py.bytes_lit "8192") (Py.bytes_lit "8192k")).
  simpl. lia.
Defined.

Lemma bytes_in_padded (m pre content post : list byte) :
  Py.bytes_in m content = true →
  Py.bytes_in m (pre ++ content ++ post) = true.
Proof.
  rewrite !bytes_in_spec. intros (a & b & ->).
  exists (pre ++ a), (b ++ post). by rewrite <- !app_assoc.
Qed.

(** X16: bytes added before or after the content of a file never take a
    reported marker away: a marker reported on a file of at least 8 bytes
    is reported on any file that holds this content as a run of bytes. *)
Theorem markers_survive_padding (fs fs' : gmap string node)
    (argv argv' : list string) (fn fn' : string)
    (pre content post m : list byte) :
  argv !! 1%nat = Some fn → fs !! fn = Some (RegularFile true content) →
  argv' !! 1%nat = Some fn' →
  fs' !! fn' = Some (RegularFile true (pre ++ content ++ post)) →
  (8 ≤ length content)%nat →
  m ∈ markers →
  marker_line m ∈ output (run (parse_image_header argv) fs) →
  marker_line m ∈ output (run (parse_image_header argv') fs').
Proof.
  intros Ha Hf Ha' Hf' Hlen Hm.
  assert (Hlen' : (8 ≤ length (pre ++ content ++ post))%nat).
  { rewrite !length_app. lia. }
  destruct content as [|x0 [|x1 [|x2 rest]]] eqn:Hc; simpl in Hlen; try lia.
  rewrite <- Hc in *.
  destruct (pre ++ content ++ post) as [|y0 [|y1 [|y2 rest']]] eqn:Hc';
    simpl in Hlen'; try lia.
  rewrite <- Hc' in *.
  rewrite (run_report fs argv fn content Ha Hf x0 x1 x2 rest Hc)
    by (rewrite Hc; simpl; lia).
  rewrite (run_report fs' argv' fn' _ Ha' Hf' y0 y1 y2 rest' Hc')
    by (rewrite Hc'; simpl; lia).
  cbn [output]. rewrite !elem_of_app, !list_elem_of_singleton.
  rewrite !(found_lines_elem _ m Hm).
  intros [Hfl|[Hfound|Hd]].
  - by apply field_lines_not_marker in Hfl.
  - right. left. by apply bytes_in_padded.
  - by apply done_line_not_marker in Hd.
Qed.

Lemma markers_survive_padding_witness :
  marker_line (Py.bytes_lit "8192k") ∈
    output (run (parse_image_header [script_name; "padded.bin"])
              {[ "padded.bin" :=
                   RegularFile true ([x00] ++ esp_image ++ [xff]) ]}).
Proof.
  apply (markers_survive_padding sample_files
           {[ "padded.bin" := RegularFile true ([x00] ++ esp_image ++ [xff]) ]}
           [script_name; "firmware.bin"] [script_name; "padded.bin"]
           "firmware.bin" "padded.bin" [x00] esp_image [xff]).
  - reflexivity.
  - reflexivity.
  - reflexivity.
  - reflexivity.
  - simpl. lia.
  - unfold markers. simpl. do 4 right. left.
  - cbn. do 9 right. left.
Defined.

(** ** Decoding the markers *)

Lemma list_byte_of_string_cons (a : ascii) (s : string) :
  String.list_byte_of_string (String a s) =
  byte_of_ascii a :: String.list_byte_of_string s.
Proof. reflexivity. Qed.

(** X17: on ASCII bytes [decode(errors='ignore')] loses nothing: the
    decoded text has one character for each byte and encodes back to the
    bytes; so a marker line spells the marker that was searched for. *)
Theorem decode_ascii_round_trip (s : list byte) :
  forallb is_ascii s = true →
  Py.bytes_lit (Py.decode_ignore s) = s ∧
  String.length (Py.decode_ignore s) = length s.
Proof.
  induction s as [|x s IH]; [done|].
  cbn [forallb]. rewrite andb_true_iff. intros [Hx Hs].
  destruct (IH Hs) as [Hbytes Hlen].
  cbn [Py.decode_ignore]. unfold is_ascii in Hx. rewrite Hx.
  unfold Py.bytes_lit in *.
  rewrite list_byte_of_string_cons, byte_of_ascii_of_byte, Hbytes.
  cbn [String.length]. by rewrite Hlen.
Qed.

Lemma decode_ascii_round_trip_witness :
  Py.bytes_lit (Py.decode_ignore (Py.bytes_lit "8192k")) = Py.bytes_lit "8192k" ∧
  String.length (Py.decode_ignore (Py.bytes_lit "8192k")) = 5%nat.
Proof.
  apply (decode_ascii_round_trip (Py.bytes_lit "8192k")). reflexivity.
Defined.
